(** * Verification of bin/mock_server.py

    A shallow embedding of the mock HTTP server used to test [install.sh]:
    the retry counter table [request_counts], the failure dispatcher
    [MockHandler.do_GET], the method dispatch of the request handler, the
    debug logging toggle, the start-up fixture creation of [main] and the
    serial accept loop of [socketserver.TCPServer]. *)

From stdpp Require Import base gmap strings list.
From Stdlib Require Import String ZArith Lia Sorted.
Import ListNotations.

Open Scope Z_scope.

(** ** Python strings and bytes *)

(** [needle in hay] for Python [str]: [needle] occurs at some offset. *)
Fixpoint contains (needle hay : string) : bool :=
  String.prefix needle hay ||
  match hay with
  | EmptyString => false
  | String _ hay' => contains needle hay'
  end.

(** [s.replace(old, "")] for a non-empty [old]: scan left to right and drop
    every non-overlapping occurrence of [old].  [skip] counts the characters
    of an occurrence still to be dropped. *)
Fixpoint remove_from (old : string) (skip : nat) (s : string) : string :=
  match s with
  | EmptyString => EmptyString
  | String c s' =>
      match skip with
      | S k => remove_from old k s'
      | O =>
          if String.prefix old s
          then remove_from old (String.length old - 1) s'
          else String c (remove_from old 0 s')
      end
  end.

Definition str_replace_empty (s old : string) : string := remove_from old 0 s.

(** [b * n] for Python [bytes]. *)
Definition bytes_mul (b : list Byte.byte) (n : Z) : list Byte.byte :=
  List.concat (List.repeat b (Z.to_nat n)).

Definition bytes_of (s : string) : list Byte.byte := list_byte_of_string s.

(** ** Replies produced by a request handler *)

Inductive reply :=
  (** [self.send_error(code, message)] *)
  | RError (code : Z) (message : string)
  (** [time.sleep(delay)] (when [delay > 0]), then [send_response(status)],
      the given [send_header] calls, [end_headers()] and [wfile.write(body)] *)
  | RSend (delay : Z) (status : Z) (headers : list (string * string))
          (body : list Byte.byte)
  (** [super().do_GET()] of [SimpleHTTPRequestHandler] with [self.path = p]:
      static file serving from the fixture root *)
  | RStatic (p : string)
  (** the inherited handling of any other method [cmd] by
      [SimpleHTTPRequestHandler] / [BaseHTTPRequestHandler]
      ([do_HEAD] serves headers of the static file, others answer 501) *)
  | RInherited (cmd : string) (p : string).

(** The status line of a reply; static serving is the library's, given as
    a function of the served path. *)
Definition reply_status (static_status : string -> Z) (r : reply) : Z :=
  match r with
  | RError c _ => c
  | RSend _ s _ _ => s
  | RStatic p => static_status p
  | RInherited _ p => static_status p
  end.

Definition reply_delay (r : reply) : Z :=
  match r with
  | RSend d _ _ _ => d
  | _ => 0
  end.

(** ** The retry counter table [request_counts] *)

Abbreviation table := (gmap string Z).

(** [count = request_counts.get(path, 0) + 1; request_counts[path] = count],
    under [request_lock]. *)
Definition bump (path : string) (t : table) : Z * table :=
  let count := default 0 (t !! path) + 1 in
  (count, <[path := count]> t).

(** ** [MockHandler.do_GET] *)

Definition wrong_content : list Byte.byte := bytes_of "wrong content ".
Definition zip_magic : list Byte.byte := [Byte.x50; Byte.x4b; Byte.x03; Byte.x04].

(** The checks after the [/fail-then-ok] block; they test the original
    [path], while static serving uses [self.path]. *)
Definition after_retry (path self_path : string) : reply :=
  if contains "/wrong-checksum" path then
    RSend 0 200 [("Content-Type", "application/octet-stream")]
          (bytes_mul wrong_content 100000)
  else if contains "/corrupted.zip" path then
    RSend 0 200 [("Content-Type", "application/zip")]
          (zip_magic ++ bytes_mul [Byte.x00] 100)
  else if contains "/small-file" path then
    RSend 0 200 [("Content-Type", "application/octet-stream")]
          (bytes_of "too small")
  else RStatic self_path.

(** [path.replace("/fail-then-ok", "") or "/"] *)
Definition strip_retry (path : string) : string :=
  match str_replace_empty path "/fail-then-ok" with
  | EmptyString => "/"
  | s => s
  end.

Definition do_GET (path : string) (t : table) : reply * table :=
  if contains "/404" path then (RError 404 "Not Found", t)
  else if contains "/500" path then (RError 500 "Internal Server Error", t)
  else if contains "/slow" path then (RSend 120 200 [] [], t)
  else if contains "/fail-then-ok" path then
    let '(count, t') := bump path t in
    if count <? 3 then (RError 503 "Service Temporarily Unavailable", t')
    else (after_retry path (strip_retry path), t')
  else (after_retry path path, t).

Example strip_retry_ex :
  strip_retry "/fail-then-ok/a/fail-then-ok/b" = "/a/b"%string.
Proof. reflexivity. Qed.

Example strip_retry_empty : strip_retry "/fail-then-ok" = "/"%string.
Proof. reflexivity. Qed.

Example do_GET_404 : fst (do_GET "/x/404/500" ∅) = RError 404 "Not Found".
Proof. reflexivity. Qed.

(** ** Sequential requests against one process-wide table *)

Fixpoint run (paths : list string) (t : table) : list reply * table :=
  match paths with
  | [] => ([], t)
  | p :: ps =>
      let '(r, t') := do_GET p t in
      let '(rs, t'') := run ps t' in
      (r :: rs, t'')
  end.

(** ** Method dispatch of [BaseHTTPRequestHandler.handle_one_request]

    [method = getattr(self, "do_" + command)]: [MockHandler] overrides only
    [do_GET]; every other command goes to the inherited handler. *)
Definition handle_one_request (command path : string) (t : table)
  : reply * table :=
  if String.eqb command "GET" then do_GET path t
  else (RInherited command path, t).

(** ** [MockHandler.log_message] *)

(** [os.environ.get("DEBUG")] is truthy: set and non-empty. *)
Definition debug_enabled (env_debug : option string) : bool :=
  match env_debug with
  | Some s => negb (String.eqb s "")
  | None => false
  end.

(** [if os.environ.get("DEBUG"): super().log_message(format, *args)]:
    the lines written to the log stream. *)
Definition log_message (env_debug : option string) (line : string)
  : list string :=
  if debug_enabled env_debug then [line] else [].

(** The access-log line of the library ([log_request]): command and path. *)
Definition request_line (command path : string) : string :=
  String.append command (String.append " " path).

(** Handling one request with the environment's [DEBUG] value: reply,
    new table and the log output. *)
Definition handle_logged (env_debug : option string) (command path : string)
    (t : table) : reply * table * list string :=
  let '(r, t') := handle_one_request command path t in
  (r, t', log_message env_debug (request_line command path)).

(** ** [ReusableTCPServer.serve_forever]

    [socketserver.TCPServer] without a mix-in handles the accepted
    connections one after another in the serving thread: a request starts
    when the previous one has finished.  [clock] is the time (in seconds)
    at which the next request starts; the result lists the time at which
    each request finishes. *)
Fixpoint serve_serial (clock : Z) (paths : list string) (t : table)
  : list Z * table :=
  match paths with
  | [] => ([], t)
  | p :: ps =>
      let '(r, t') := do_GET p t in
      let fin := clock + reply_delay r in
      let '(fins, t'') := serve_serial fin ps t' in
      (fin :: fins, t'')
  end.

(** ** Start-up fixture creation in [main]

    The fixture root's files by name. *)
Abbreviation fixtures := (gmap string (list Byte.byte)).

Definition mock_binary_name : string := "mock_binary".

(** [if not os.path.exists(mock_binary): open(mock_binary, "wb").write(
    b"\x00" * (2 * 1024 * 1024))] *)
Definition ensure_mock_binary (fs : fixtures) : fixtures :=
  match fs !! mock_binary_name with
  | Some _ => fs
  | None => <[mock_binary_name := bytes_mul [Byte.x00] (2 * 1024 * 1024)]> fs
  end.

Example run_retry_ex :
  fst (run (repeat "/fail-then-ok/x" 4) ∅) =
  [RError 503 "Service Temporarily Unavailable";
   RError 503 "Service Temporarily Unavailable";
   RStatic "/x"; RStatic "/x"].
Proof. reflexivity. Qed.

Example serve_serial_ex :
  fst (serve_serial 0 ["/slow"; "/small-file"] ∅) = [120; 120].
Proof. reflexivity. Qed.

(** The requests that reach the [/fail-then-ok] block of [do_GET]: none of
    the earlier checks matches and the path contains [/fail-then-ok]. *)
Definition reaches_retry (path : string) : bool :=
  negb (contains "/404" path) && negb (contains "/500" path) &&
  negb (contains "/slow" path) && contains "/fail-then-ok" path.

(** Finish times of requests handled one after another from [clock], each
    taking the given time. *)
Fixpoint finish_times (clock : Z) (delays : list Z) : list Z :=
  match delays with
  | [] => []
  | d :: ds => (clock + d) :: finish_times (clock + d) ds
  end.

(** ** Module-level configuration

    [posixpath.join(a, b)] for two components. *)
Definition posix_join (a b : string) : string :=
  if String.prefix "/" b then b
  else if String.eqb a "" then b
  else if String.eqb (String.substring (String.length a - 1) 1 a) "/"
  then String.append a b
  else String.append a (String.append "/" b).

(** [PORT = int(sys.argv[1]) if len(sys.argv) > 1 else 8888] and
    [FIXTURES_DIR = sys.argv[2] if len(sys.argv) > 2 else
     os.path.join(os.path.dirname(__file__), "test_fixtures")].
    [py_int] is Python's [int()] on a string ([None] when it raises
    [ValueError], which aborts the module); [script_dir] is
    [os.path.dirname(__file__)]. *)
Definition config_of_argv (py_int : string -> option Z) (script_dir : string)
    (argv : list string) : option (Z * string) :=
  match (match argv with
         | _ :: a1 :: _ => py_int a1
         | _ => Some 8888
         end) with
  | None => None
  | Some port =>
      Some (port,
            match argv with
            | _ :: _ :: a2 :: _ => a2
            | _ => posix_join script_dir "test_fixtures"
            end)
  end.

(** ** Helper lemmas *)

Lemma length_bytes_mul (b : list Byte.byte) (n : Z) :
  List.length (bytes_mul b n) = (Z.to_nat n * List.length b)%nat.
Proof.
  unfold bytes_mul. induction (Z.to_nat n) as [|k IH]; [reflexivity|].
  cbn [List.repeat List.concat]. rewrite length_app, IH. lia.
Qed.

Lemma bytes_mul_repeat (x : Byte.byte) (n : Z) :
  bytes_mul [x] n = List.repeat x (Z.to_nat n).
Proof.
  unfold bytes_mul. induction (Z.to_nat n) as [|k IH]; [reflexivity|].
  cbn [List.repeat List.concat]. rewrite IH. reflexivity.
Qed.

(** The reply of [do_GET] depends on the table only through the entry of
    the requested path. *)
Lemma do_GET_reply_local (p : string) (t1 t2 : table) :
  t1 !! p = t2 !! p -> fst (do_GET p t1) = fst (do_GET p t2).
Proof.
  intros Hp. unfold do_GET, bump. rewrite Hp.
  repeat (destruct (contains _ p); [reflexivity|]).
  destruct (contains _ p); [|reflexivity].
  destruct (_ <? 3); reflexivity.
Qed.

(** [do_GET] touches at most the entry of the requested path. *)
Lemma do_GET_table (p : string) (t : table) :
  snd (do_GET p t) = t \/ snd (do_GET p t) = <[p := default 0 (t !! p) + 1]> t.
Proof.
  unfold do_GET, bump.
  destruct (contains "/404" p); [left; reflexivity|].
  destruct (contains "/500" p); [left; reflexivity|].
  destruct (contains "/slow" p); [left; reflexivity|].
  destruct (contains "/fail-then-ok" p); [|left; reflexivity].
  right. destruct (_ <? 3); reflexivity.
Qed.

Lemma do_GET_frame (p q : string) (t : table) :
  p <> q -> snd (do_GET p t) !! q = t !! q.
Proof.
  intros Hne. destruct (do_GET_table p t) as [-> | ->]; [reflexivity|].
  by rewrite lookup_insert_ne.
Qed.

Lemma run_repeat_frame (p q : string) (k : nat) (t : table) :
  p <> q -> snd (run (repeat p k) t) !! q = t !! q.
Proof.
  intros Hne. revert t. induction k as [|k IH]; intros t; [reflexivity|].
  cbn [repeat run]. pose proof (do_GET_frame p q t Hne) as Hf.
  destruct (do_GET p t) as [r t'] eqn:E. simpl in Hf.
  specialize (IH t'). destruct (run (repeat p k) t') as [rs t''].
  simpl in *. congruence.
Qed.

(** ** Claims *)

(** C4: a path containing [/404] is answered with status 404 ("Not Found")
    whatever else it contains, and the table is left as it is: the [/404]
    check is the first one and returns. *)
Theorem do_GET_404_first (p : string) (t : table) :
  contains "/404" p = true ->
  do_GET p t = (RError 404 "Not Found", t) /\
  forall static_status, reply_status static_status (fst (do_GET p t)) = 404.
Proof.
  intros H. unfold do_GET. rewrite H. split; reflexivity.
Qed.

Lemma do_GET_404_first_witness :
  contains "/404" "/404/500/fail-then-ok" = true /\
  do_GET "/404/500/fail-then-ok" ∅ = (RError 404 "Not Found", ∅) /\
  forall static_status,
    reply_status static_status (fst (do_GET "/404/500/fail-then-ok" ∅)) = 404.
Proof.
  split; [reflexivity|]. apply do_GET_404_first. reflexivity.
Defined.

(** C5: for distinct paths [p1 <> p2], a request to [p1] leaves the entry of
    [p2] (and every entry other than [p1]'s) unchanged and changes [p1]'s
    entry at most by one increment; hence any number of requests to [p1]
    leave the reply to [p2] as it was. *)
Theorem retry_counters_independent (p1 p2 : string) (t : table) :
  p1 <> p2 ->
  snd (do_GET p1 t) !! p2 = t !! p2 /\
  (snd (do_GET p1 t) = t \/
   snd (do_GET p1 t) = <[p1 := default 0 (t !! p1) + 1]> t) /\
  forall k : nat,
    fst (do_GET p2 (snd (run (repeat p1 k) t))) = fst (do_GET p2 t).
Proof.
  intros Hne. split; [by apply do_GET_frame|]. split; [apply do_GET_table|].
  intros k. apply do_GET_reply_local. by apply run_repeat_frame.
Qed.

Lemma retry_counters_independent_witness :
  snd (do_GET "/fail-then-ok/a" ∅) !! "/fail-then-ok/b" =
    (∅ : table) !! "/fail-then-ok/b" /\
  (snd (do_GET "/fail-then-ok/a" ∅) = ∅ \/
   snd (do_GET "/fail-then-ok/a" ∅) =
     <["/fail-then-ok/a" := default 0 ((∅ : table) !! "/fail-then-ok/a") + 1]> ∅) /\
  forall k : nat,
    fst (do_GET "/fail-then-ok/b" (snd (run (repeat "/fail-then-ok/a" k) ∅))) =
    fst (do_GET "/fail-then-ok/b" ∅).
Proof.
  apply retry_counters_independent. discriminate.
Defined.

(** C9: only GET goes through the failure dispatcher; any other command is
    handled by the inherited handler and leaves the table unchanged, even
    for a path with a scenario substring. *)
Theorem non_GET_inherited (command path : string) (t : table) :
  command <> "GET"%string ->
  handle_one_request command path t = (RInherited command path, t).
Proof.
  intros Hne. unfold handle_one_request.
  destruct (String.eqb_spec command "GET"); [contradiction|reflexivity].
Qed.

Lemma non_GET_inherited_witness :
  handle_one_request "HEAD" "/fail-then-ok/404" ∅ =
    (RInherited "HEAD" "/fail-then-ok/404", ∅).
Proof.
  apply non_GET_inherited. discriminate.
Defined.

(** C10: logging is on exactly when [DEBUG] is set to a non-empty string
    (so "0" and "false" turn it on), and off when unset or empty; the
    reply and the table do not depend on it. *)
Theorem debug_toggle (env1 env2 : option string) :
  (forall s, debug_enabled (Some s) = true <-> s <> ""%string) /\
  debug_enabled None = false /\
  debug_enabled (Some "0") = true /\
  debug_enabled (Some "false") = true /\
  (forall line, log_message env1 line =
                if debug_enabled env1 then [line] else []) /\
  (forall command path t,
     fst (handle_logged env1 command path t) =
     fst (handle_logged env2 command path t)).
Proof.
  split.
  { intros s. unfold debug_enabled.
    destruct (String.eqb_spec s ""); simpl; split; congruence. }
  split; [reflexivity|]. split; [reflexivity|]. split; [reflexivity|].
  split; [reflexivity|].
  intros command path t. unfold handle_logged.
  destruct (handle_one_request command path t). reflexivity.
Qed.

(** C6: a path containing [/wrong-checksum] and none of the earlier
    scenario substrings gets status 200, content type
    application/octet-stream and the body [b"wrong content " * 100000]:
    1,400,000 bytes. *)
Theorem wrong_checksum_reply (p : string) (t : table) :
  contains "/404" p = false -> contains "/500" p = false ->
  contains "/slow" p = false -> contains "/fail-then-ok" p = false ->
  contains "/wrong-checksum" p = true ->
  exists body,
    do_GET p t =
      (RSend 0 200 [("Content-Type", "application/octet-stream")] body, t) /\
    body = bytes_mul (bytes_of "wrong content ") 100000 /\
    List.length (bytes_of "wrong content ") = 14%nat /\
    Z.of_nat (List.length body) = 1400000.
Proof.
  intros H4 H5 Hs Hf Hw. exists (bytes_mul wrong_content 100000).
  unfold do_GET, after_retry. rewrite H4, H5, Hs, Hf, Hw.
  split; [reflexivity|]. split; [reflexivity|]. split; [reflexivity|].
  rewrite length_bytes_mul.
  change (List.length wrong_content) with 14%nat.
  rewrite Nat2Z.inj_mul, Z2Nat.id by lia. reflexivity.
Qed.

Lemma wrong_checksum_reply_witness :
  exists body,
    do_GET "/v1/wrong-checksum" ∅ =
      (RSend 0 200 [("Content-Type", "application/octet-stream")] body, ∅) /\
    body = bytes_mul (bytes_of "wrong content ") 100000 /\
    List.length (bytes_of "wrong content ") = 14%nat /\
    Z.of_nat (List.length body) = 1400000.
Proof.
  apply wrong_checksum_reply; reflexivity.
Defined.

(** C7: a path containing [/corrupted.zip] and none of the earlier
    scenario substrings gets status 200, content type application/zip and
    the 104-byte body [PK\x03\x04] followed by 100 zero bytes. *)
Theorem corrupted_zip_reply (p : string) (t : table) :
  contains "/404" p = false -> contains "/500" p = false ->
  contains "/slow" p = false -> contains "/fail-then-ok" p = false ->
  contains "/wrong-checksum" p = false ->
  contains "/corrupted.zip" p = true ->
  exists body,
    do_GET p t = (RSend 0 200 [("Content-Type", "application/zip")] body, t) /\
    body = [Byte.x50; Byte.x4b; Byte.x03; Byte.x04] ++ List.repeat Byte.x00 100 /\
    bytes_of "PK" = [Byte.x50; Byte.x4b] /\
    List.length body = 104%nat.
Proof.
  intros H4 H5 Hs Hf Hw Hz.
  exists (zip_magic ++ bytes_mul [Byte.x00] 100).
  unfold do_GET, after_retry. rewrite H4, H5, Hs, Hf, Hw, Hz.
  rewrite bytes_mul_repeat. repeat split; reflexivity.
Qed.

Lemma corrupted_zip_reply_witness :
  exists body,
    do_GET "/dl/corrupted.zip" ∅ =
      (RSend 0 200 [("Content-Type", "application/zip")] body, ∅) /\
    body = [Byte.x50; Byte.x4b; Byte.x03; Byte.x04] ++ List.repeat Byte.x00 100 /\
    bytes_of "PK" = [Byte.x50; Byte.x4b] /\
    List.length body = 104%nat.
Proof.
  apply corrupted_zip_reply; reflexivity.
Defined.

(** C8: when the fixture root has no [mock_binary], start-up creates it with
    2,097,152 zero bytes and changes nothing else; when it has one, start-up
    leaves the store exactly as it was; so a second start-up changes
    nothing. *)
Theorem mock_binary_setup (fs : fixtures) :
  match fs !! "mock_binary"%string with
  | None =>
      exists z,
        ensure_mock_binary fs = <["mock_binary"%string := z]> fs /\
        Z.of_nat (List.length z) = 2097152 /\
        Forall (fun b => b = Byte.x00) z
  | Some _ => ensure_mock_binary fs = fs
  end /\
  ensure_mock_binary (ensure_mock_binary fs) = ensure_mock_binary fs.
Proof.
  unfold ensure_mock_binary, mock_binary_name.
  destruct (fs !! "mock_binary"%string) as [c|] eqn:E.
  - rewrite E. split; reflexivity.
  - split.
    + eexists. split; [reflexivity|]. rewrite bytes_mul_repeat. split.
      * rewrite repeat_length, Z2Nat.id by lia. reflexivity.
      * apply Forall_forall. intros b Hb.
        apply list_elem_of_In, repeat_spec in Hb. exact Hb.
    + by rewrite lookup_insert_eq.
Qed.

(** C2: the server is a plain [TCPServer]; after a [/slow] request is
    accepted, the next request, whatever its path, finishes no earlier than
    120 seconds later. *)
Lemma do_GET_delay_nonneg (p : string) (t : table) :
  0 <= reply_delay (fst (do_GET p t)).
Proof.
  unfold do_GET, after_retry, bump.
  repeat match goal with
         | |- context [if ?b then _ else _] => destruct b
         end; simpl; lia.
Qed.

Theorem slow_blocks_next_request (q : string) (t : table) :
  exists fin, fst (serve_serial 0 ["/slow"%string; q] t) = [120; fin] /\ 120 <= fin.
Proof.
  unfold serve_serial. change (do_GET "/slow" t) with (RSend 120 200 [] [], t).
  pose proof (do_GET_delay_nonneg q t) as Hd.
  destruct (do_GET q t) as [r t'] eqn:E. simpl in Hd |- *.
  rewrite E. simpl. exists (120 + reply_delay r). split; [reflexivity|lia].
Qed.

(** The reply of the [/fail-then-ok] block for the count after increment. *)
Definition retry_reply (path : string) (count : Z) : reply :=
  if count <? 3 then RError 503 "Service Temporarily Unavailable"
  else after_retry path (strip_retry path).

Lemma do_GET_retry (p : string) (t : table) :
  contains "/404" p = false -> contains "/500" p = false ->
  contains "/slow" p = false -> contains "/fail-then-ok" p = true ->
  do_GET p t = (retry_reply p (default 0 (t !! p) + 1),
                <[p := default 0 (t !! p) + 1]> t).
Proof.
  intros H4 H5 Hs Hf. unfold do_GET, bump, retry_reply.
  rewrite H4, H5, Hs, Hf. destruct (_ <? 3); reflexivity.
Qed.

Lemma run_repeat_retry (p : string) (n : nat) (t : table) :
  contains "/404" p = false -> contains "/500" p = false ->
  contains "/slow" p = false -> contains "/fail-then-ok" p = true ->
  run (repeat p (S n)) t =
    (map (fun i => retry_reply p (default 0 (t !! p) + Z.of_nat i + 1))
         (seq 0 (S n)),
     <[p := default 0 (t !! p) + Z.of_nat (S n)]> t).
Proof.
  intros H4 H5 Hs Hf. revert t. induction n as [|n IH]; intros t.
  - cbn [repeat run]. rewrite do_GET_retry by assumption. simpl.
    do 3 f_equal; lia.
  - change (repeat p (S (S n))) with (p :: repeat p (S n)). cbn [run].
    rewrite do_GET_retry by assumption. rewrite IH, lookup_insert_eq.
    simpl default. rewrite insert_insert_eq. f_equal.
    + change (seq 0 (S (S n))) with (0%nat :: seq 1 (S n)).
      cbn [map]. rewrite <- (seq_shift (S n) 0), map_map. f_equal.
      * f_equal. lia.
      * apply map_ext. intros i. f_equal. lia.
    + f_equal. lia.
Qed.

Lemma run_repeat_retry_empty (p : string) (n : nat) :
  contains "/404" p = false -> contains "/500" p = false ->
  contains "/slow" p = false -> contains "/fail-then-ok" p = true ->
  run (repeat p n) ∅ =
    (map (fun i => retry_reply p (Z.of_nat i + 1)) (seq 0 n),
     match n with O => ∅ | S _ => {[p := Z.of_nat n]} end).
Proof.
  intros H4 H5 Hs Hf. destruct n as [|n]; [reflexivity|].
  rewrite run_repeat_retry by assumption. rewrite lookup_empty. simpl default.
  reflexivity.
Qed.

(** C1 (amended): for a path [p] containing [/fail-then-ok] and none of
    [/404], [/500], [/slow], [n] requests to [p] from the empty table give
    503 for the first two and, for the third and every later one, the one
    fall-through reply [after_retry p (strip_retry p)]; the count of [p]
    is then [n] (it keeps counting, and is never reset).  That reply has
    status 200 whenever static serving of the rewritten path does. *)
Theorem fail_then_ok_sequence (p : string) (n : nat) :
  contains "/404" p = false -> contains "/500" p = false ->
  contains "/slow" p = false -> contains "/fail-then-ok" p = true ->
  List.length (fst (run (repeat p n) ∅)) = n /\
  (forall k : nat, (k < n)%nat ->
     fst (run (repeat p n) ∅) !! k =
       Some (if (k <? 2)%nat then RError 503 "Service Temporarily Unavailable"
             else after_retry p (strip_retry p))) /\
  snd (run (repeat p n) ∅) !! p = (match n with O => None | S _ => Some (Z.of_nat n) end) /\
  (forall static_status, static_status (strip_retry p) = 200 ->
     reply_status static_status (after_retry p (strip_retry p)) = 200).
Proof.
  intros H4 H5 Hs Hf. rewrite run_repeat_retry_empty by assumption.
  simpl fst. simpl snd. split; [by rewrite length_map, length_seq|]. split.
  - intros k Hk. simpl fst. rewrite list_lookup_fmap, lookup_seq_lt by lia.
    simpl. unfold retry_reply. f_equal.
    destruct (Nat.ltb_spec k 2) as [Hl|Hl].
    + replace (Z.of_nat k + 1 <? 3) with true; [reflexivity|].
      symmetry. apply Z.ltb_lt. lia.
    + replace (Z.of_nat k + 1 <? 3) with false; [reflexivity|].
      symmetry. apply Z.ltb_ge. lia.
  - split.
    + destruct n; simpl; [reflexivity|]. by rewrite lookup_singleton_eq.
    + intros st Hst. unfold after_retry.
      destruct (contains "/wrong-checksum" p); [reflexivity|].
      destruct (contains "/corrupted.zip" p); [reflexivity|].
      destruct (contains "/small-file" p); [reflexivity|]. exact Hst.
Qed.

Lemma fail_then_ok_sequence_witness :
  List.length (fst (run (repeat "/fail-then-ok/mock_binary" 4) ∅)) = 4%nat /\
  (forall k : nat, (k < 4)%nat ->
     fst (run (repeat "/fail-then-ok/mock_binary" 4) ∅) !! k =
       Some (if (k <? 2)%nat then RError 503 "Service Temporarily Unavailable"
             else after_retry "/fail-then-ok/mock_binary"
                    (strip_retry "/fail-then-ok/mock_binary"))) /\
  snd (run (repeat "/fail-then-ok/mock_binary" 4) ∅) !! "/fail-then-ok/mock_binary"
    = Some 4 /\
  (forall static_status,
     static_status (strip_retry "/fail-then-ok/mock_binary") = 200 ->
     reply_status static_status
       (after_retry "/fail-then-ok/mock_binary"
          (strip_retry "/fail-then-ok/mock_binary")) = 200).
Proof.
  apply (fail_then_ok_sequence "/fail-then-ok/mock_binary" 4); reflexivity.
Defined.

(** C1 fails as stated: a path with [/404] before [/fail-then-ok] is
    answered 404 every time, and a rewritten path with no fixture file gets
    the static server's not-found status on the third request. *)
Lemma fail_then_ok_sequence_counterexample :
  map (reply_status (fun _ => 200)) (fst (run (repeat "/404/fail-then-ok" 3) ∅))
    = [404; 404; 404] /\
  map (reply_status (fun _ => 200)) (fst (run (repeat "/404/fail-then-ok" 3) ∅))
    <> [503; 503; 200] /\
  map (reply_status (fun _ => 404)) (fst (run (repeat "/fail-then-ok/missing" 3) ∅))
    <> [503; 503; 200].
Proof.
  split; [reflexivity|]. split; vm_compute; congruence.
Qed.

(** The rewrite as the spec words it, to compare with [strip_retry]:
    strip a leading [/fail-then-ok], collapsing to "/" if nothing is left. *)
Definition spec_strip_prefix (path : string) : string :=
  if String.prefix "/fail-then-ok" path then
    match substring 13 (String.length path - 13) path with
    | EmptyString => "/"
    | s => s
    end
  else path.

(** C3 (amended): for a path [p] containing [/fail-then-ok] and none of
    [/404], [/500], [/slow], whose count after increment is at least 3,
    the path is rewritten by removing every occurrence of [/fail-then-ok]
    ([str.replace], "/" if empty); the [/wrong-checksum], [/corrupted.zip]
    and [/small-file] checks then still run on the original [p], and only
    when none matches is the rewritten path served statically. *)
Theorem fail_then_ok_fallthrough (p : string) (t : table) :
  contains "/404" p = false -> contains "/500" p = false ->
  contains "/slow" p = false -> contains "/fail-then-ok" p = true ->
  3 <= default 0 (t !! p) + 1 ->
  do_GET p t = (after_retry p (strip_retry p),
                <[p := default 0 (t !! p) + 1]> t) /\
  strip_retry p =
    (match str_replace_empty p "/fail-then-ok" with
     | EmptyString => "/" | s => s end) /\
  (contains "/wrong-checksum" p = false -> contains "/corrupted.zip" p = false ->
   contains "/small-file" p = false ->
   fst (do_GET p t) = RStatic (strip_retry p)).
Proof.
  intros H4 H5 Hs Hf H3.
  assert (Hd : do_GET p t = (after_retry p (strip_retry p),
                             <[p := default 0 (t !! p) + 1]> t)).
  { rewrite do_GET_retry by assumption. unfold retry_reply.
    replace (default 0 (t !! p) + 1 <? 3) with false; [reflexivity|].
    symmetry. apply Z.ltb_ge. lia. }
  split; [exact Hd|]. split; [reflexivity|].
  intros Hw Hz Hm. rewrite Hd. simpl. unfold after_retry. rewrite Hw, Hz, Hm.
  reflexivity.
Qed.

Lemma fail_then_ok_fallthrough_witness :
  do_GET "/fail-then-ok/mock_binary" {["/fail-then-ok/mock_binary" := 2]} =
    (after_retry "/fail-then-ok/mock_binary" (strip_retry "/fail-then-ok/mock_binary"),
     <["/fail-then-ok/mock_binary" :=
        default 0 (({["/fail-then-ok/mock_binary" := 2]} : table)
                     !! "/fail-then-ok/mock_binary") + 1]>
       {["/fail-then-ok/mock_binary" := 2]}) /\
  strip_retry "/fail-then-ok/mock_binary" =
    (match str_replace_empty "/fail-then-ok/mock_binary" "/fail-then-ok" with
     | EmptyString => "/" | s => s end) /\
  (contains "/wrong-checksum" "/fail-then-ok/mock_binary" = false ->
   contains "/corrupted.zip" "/fail-then-ok/mock_binary" = false ->
   contains "/small-file" "/fail-then-ok/mock_binary" = false ->
   fst (do_GET "/fail-then-ok/mock_binary" {["/fail-then-ok/mock_binary" := 2]}) =
     RStatic (strip_retry "/fail-then-ok/mock_binary")).
Proof.
  apply fail_then_ok_fallthrough; vm_compute; congruence.
Defined.

(** C3 fails as stated: on the third request, [/fail-then-ok/wrong-checksum]
    gets the canned wrong-checksum reply, not static serving of
    [/wrong-checksum]; and [/fail-then-ok/fail-then-ok/x] is served as [/x],
    not as the prefix-stripped [/fail-then-ok/x]. *)
Lemma fail_then_ok_fallthrough_counterexample :
  fst (do_GET "/fail-then-ok/wrong-checksum" {["/fail-then-ok/wrong-checksum" := 2]})
    = RSend 0 200 [("Content-Type", "application/octet-stream")]
            (bytes_mul wrong_content 100000) /\
  fst (do_GET "/fail-then-ok/wrong-checksum" {["/fail-then-ok/wrong-checksum" := 2]})
    <> RStatic (spec_strip_prefix "/fail-then-ok/wrong-checksum") /\
  fst (do_GET "/fail-then-ok/fail-then-ok/x" {["/fail-then-ok/fail-then-ok/x" := 2]})
    = RStatic "/x" /\
  spec_strip_prefix "/fail-then-ok/fail-then-ok/x" = "/fail-then-ok/x"%string /\
  fst (do_GET "/fail-then-ok/fail-then-ok/x" {["/fail-then-ok/fail-then-ok/x" := 2]})
    <> RStatic (spec_strip_prefix "/fail-then-ok/fail-then-ok/x").
Proof.
  assert (Hw : fst (do_GET "/fail-then-ok/wrong-checksum"
                     {["/fail-then-ok/wrong-checksum" := 2]})
               = RSend 0 200 [("Content-Type", "application/octet-stream")]
                       (bytes_mul wrong_content 100000)).
  { rewrite do_GET_retry by reflexivity. reflexivity. }
  split; [exact Hw|]. split; [rewrite Hw; discriminate|].
  split; [reflexivity|]. split; [reflexivity|].
  vm_compute. congruence.
Qed.

(** ** Further properties of the code *)

Lemma reaches_retry_spec (p : string) :
  reaches_retry p = true ->
  contains "/404" p = false /\ contains "/500" p = false /\
  contains "/slow" p = false /\ contains "/fail-then-ok" p = true.
Proof.
  unfold reaches_retry.
  destruct (contains "/404" p), (contains "/500" p), (contains "/slow" p),
    (contains "/fail-then-ok" p); simpl; intros H; try discriminate.
  repeat split.
Qed.

Lemma do_GET_lookup (q p : string) (t : table) :
  snd (do_GET q t) !! p =
    if reaches_retry q && String.eqb q p
    then Some (default 0 (t !! q) + 1) else t !! p.
Proof.
  unfold do_GET, bump, reaches_retry.
  destruct (contains "/404" q); [reflexivity|].
  destruct (contains "/500" q); [reflexivity|].
  destruct (contains "/slow" q); [reflexivity|].
  destruct (contains "/fail-then-ok" q); [|reflexivity]. simpl.
  assert (Hins : <[q := default 0 (t !! q) + 1]> t !! p =
                 if String.eqb q p then Some (default 0 (t !! q) + 1) else t !! p).
  { destruct (String.eqb_spec q p) as [<-|Hne].
    - by rewrite lookup_insert_eq.
    - by rewrite lookup_insert_ne. }
  destruct (_ <? 3); exact Hins.
Qed.

(** X1: a path containing [/500] but not [/404] is answered
    500 "Internal Server Error" and the table is unchanged. *)
Theorem do_GET_500 (p : string) (t : table) :
  contains "/404" p = false -> contains "/500" p = true ->
  do_GET p t = (RError 500 "Internal Server Error", t).
Proof. intros H4 H5. unfold do_GET. by rewrite H4, H5. Qed.

Lemma do_GET_500_witness :
  do_GET "/500/fail-then-ok" ∅ = (RError 500 "Internal Server Error", ∅).
Proof. apply do_GET_500; reflexivity. Defined.

(** X2: a path containing [/slow] but neither [/404] nor [/500] sleeps 120
    seconds and then answers 200 with no header of its own and an empty
    body, without touching the table, even if it contains [/fail-then-ok]. *)
Theorem do_GET_slow (p : string) (t : table) :
  contains "/404" p = false -> contains "/500" p = false ->
  contains "/slow" p = true ->
  do_GET p t = (RSend 120 200 [] [], t).
Proof. intros H4 H5 Hs. unfold do_GET. by rewrite H4, H5, Hs. Qed.

Lemma do_GET_slow_witness :
  do_GET "/slow/fail-then-ok" ∅ = (RSend 120 200 [] [], ∅).
Proof. apply do_GET_slow; reflexivity. Defined.

(** X3: a path containing [/small-file] and none of the earlier scenario
    substrings is answered 200, application/octet-stream, with the 9-byte
    body "too small". *)
Theorem do_GET_small_file (p : string) (t : table) :
  contains "/404" p = false -> contains "/500" p = false ->
  contains "/slow" p = false -> contains "/fail-then-ok" p = false ->
  contains "/wrong-checksum" p = false -> contains "/corrupted.zip" p = false ->
  contains "/small-file" p = true ->
  do_GET p t = (RSend 0 200 [("Content-Type", "application/octet-stream")]
                      (bytes_of "too small"), t) /\
  List.length (bytes_of "too small") = 9%nat.
Proof.
  intros H4 H5 Hs Hf Hw Hz Hm. unfold do_GET, after_retry.
  rewrite H4, H5, Hs, Hf, Hw, Hz, Hm. split; reflexivity.
Qed.

Lemma do_GET_small_file_witness :
  do_GET "/small-file" ∅ = (RSend 0 200 [("Content-Type", "application/octet-stream")]
                              (bytes_of "too small"), ∅) /\
  List.length (bytes_of "too small") = 9%nat.
Proof. apply do_GET_small_file; reflexivity. Defined.

(** X4: a path with none of the scenario substrings is served statically
    under its own, unrewritten path, and the table is unchanged. *)
Theorem do_GET_plain_static (p : string) (t : table) :
  contains "/404" p = false -> contains "/500" p = false ->
  contains "/slow" p = false -> contains "/fail-then-ok" p = false ->
  contains "/wrong-checksum" p = false -> contains "/corrupted.zip" p = false ->
  contains "/small-file" p = false ->
  do_GET p t = (RStatic p, t).
Proof.
  intros H4 H5 Hs Hf Hw Hz Hm. unfold do_GET, after_retry.
  by rewrite H4, H5, Hs, Hf, Hw, Hz, Hm.
Qed.

Lemma do_GET_plain_static_witness :
  do_GET "/mock_binary" ∅ = (RStatic "/mock_binary", ∅).
Proof. apply do_GET_plain_static; reflexivity. Defined.

(** X5: after any sequence of requests [ps], the entry of a path [p] has
    grown by the number of requests to exactly [p] if [p] reaches the
    [/fail-then-ok] block, and is unchanged otherwise: no other request
    creates, changes or removes it. *)
Theorem run_counts (ps : list string) (p : string) (t : table) :
  snd (run ps t) !! p =
    if reaches_retry p && negb (Nat.eqb (count_occ string_dec ps p) 0)
    then Some (default 0 (t !! p) + Z.of_nat (count_occ string_dec ps p))
    else t !! p.
Proof.
  revert t. induction ps as [|q ps IH]; intros t.
  - simpl. destruct (reaches_retry p); reflexivity.
  - cbn [run]. pose proof (do_GET_lookup q p t) as Hq.
    destruct (do_GET q t) as [r t'] eqn:E. simpl in Hq.
    specialize (IH t'). destruct (run ps t') as [rs t''] eqn:E2.
    simpl in IH |- *. rewrite IH.
    destruct (string_dec q p) as [<-|Hne].
    + rewrite String.eqb_refl, andb_true_r in Hq.
      destruct (reaches_retry q); simpl; [|exact Hq].
      rewrite Hq. simpl.
      destruct (count_occ string_dec ps q) as [|c]; simpl; f_equal; lia.
    + replace (String.eqb q p) with false in Hq
        by (symmetry; by apply String.eqb_neq).
      rewrite andb_false_r in Hq. rewrite Hq. reflexivity.
Qed.

(** X6: for a path [p] that reaches the [/fail-then-ok] block, the reply to
    a request for [p] after any sequence [ps] of requests (to [p] or to any
    other paths, in any order) depends only on how many of them were to
    exactly [p]: 503 while fewer than two, the fall-through reply after. *)
Theorem retry_reply_after_run (ps : list string) (p : string) :
  reaches_retry p = true ->
  fst (do_GET p (snd (run ps ∅))) =
    retry_reply p (Z.of_nat (count_occ string_dec ps p) + 1).
Proof.
  intros Hr. destruct (reaches_retry_spec p Hr) as (H4 & H5 & Hs & Hf).
  rewrite do_GET_retry by assumption. simpl fst. f_equal.
  rewrite run_counts, Hr, lookup_empty. simpl.
  destruct (count_occ string_dec ps p); reflexivity.
Qed.

Lemma retry_reply_after_run_witness :
  fst (do_GET "/fail-then-ok/a"
         (snd (run ["/fail-then-ok/a"; "/fail-then-ok/b"; "/404"; "/fail-then-ok/a"] ∅))) =
    retry_reply "/fail-then-ok/a"
      (Z.of_nat (count_occ string_dec
                   ["/fail-then-ok/a"; "/fail-then-ok/b"; "/404"; "/fail-then-ok/a"]
                   "/fail-then-ok/a") + 1).
Proof. apply retry_reply_after_run. reflexivity. Defined.

Lemma remove_from_absent (old q : string) :
  contains old q = false -> remove_from old 0 q = q.
Proof.
  induction q as [|c q IH]; intros H; [reflexivity|].
  simpl in H. apply orb_false_iff in H as [Hp Hc].
  simpl. rewrite Hp, IH by exact Hc. reflexivity.
Qed.

Lemma substring_whole (s : string) : substring 0 (String.length s) s = s.
Proof. induction s as [|c s IH]; simpl; [reflexivity|]. by rewrite IH. Qed.

(** X7: for a path made of a leading [/fail-then-ok] followed by a rest
    [q] with no further occurrence, the rewrite is exactly the removal of
    that prefix ("/" when [q] is empty), which agrees with stripping the
    prefix. *)
Theorem strip_retry_prefix (q : string) :
  contains "/fail-then-ok" q = false ->
  strip_retry (String.append "/fail-then-ok" q) =
    (if String.eqb q "" then "/"%string else q) /\
  strip_retry (String.append "/fail-then-ok" q) =
    spec_strip_prefix (String.append "/fail-then-ok" q).
Proof.
  intros Hq.
  assert (Hs : strip_retry (String.append "/fail-then-ok" q) =
               (if String.eqb q "" then "/"%string else q)).
  { unfold strip_retry, str_replace_empty.
    replace (remove_from "/fail-then-ok" 0 (String.append "/fail-then-ok" q))
      with (remove_from "/fail-then-ok" 0 q) by (destruct q; reflexivity).
    rewrite remove_from_absent by exact Hq. destruct q; reflexivity. }
  split; [exact Hs|]. rewrite Hs. unfold spec_strip_prefix.
  destruct q as [|c q']; [reflexivity|].
  replace (String.prefix "/fail-then-ok" (String.append "/fail-then-ok" (String c q')))
    with true by reflexivity.
  replace (substring 13 (String.length (String.append "/fail-then-ok" (String c q')) - 13)
             (String.append "/fail-then-ok" (String c q')))
    with (String c q'); [reflexivity|].
  transitivity (substring 0 (String.length (String c q')) (String c q'));
    [symmetry; apply substring_whole | reflexivity].
Qed.

Lemma strip_retry_prefix_witness :
  strip_retry (String.append "/fail-then-ok" "/mock_binary") =
    (if String.eqb "/mock_binary" "" then "/"%string else "/mock_binary") /\
  strip_retry (String.append "/fail-then-ok" "/mock_binary") =
    spec_strip_prefix (String.append "/fail-then-ok" "/mock_binary").
Proof. apply strip_retry_prefix. reflexivity. Defined.

(** X8: only [/slow] sleeps: a reply is delayed (by 120 seconds) exactly
    when the path contains [/slow] and neither [/404] nor [/500]. *)
Theorem do_GET_delay (p : string) (t : table) :
  reply_delay (fst (do_GET p t)) =
    if negb (contains "/404" p) && negb (contains "/500" p) &&
       contains "/slow" p
    then 120 else 0.
Proof.
  unfold do_GET, after_retry, bump.
  destruct (contains "/404" p); [reflexivity|].
  destruct (contains "/500" p); [reflexivity|].
  destruct (contains "/slow" p); [reflexivity|]. simpl.
  repeat match goal with
         | |- context [if ?b then _ else _] => destruct b
         end; reflexivity.
Qed.

(** X9: the dispatcher itself only answers 404, 500, 503 or 200 (with no
    delay or the 120-second one); what it hands to static serving is the
    request path or its non-empty rewrite; it never uses the handling of
    another method. *)
Theorem do_GET_reply_shape (p : string) (t : table) :
  match fst (do_GET p t) with
  | RError c _ => c = 404 \/ c = 500 \/ c = 503
  | RSend d s _ _ => s = 200 /\ (d = 0 \/ d = 120)
  | RStatic q => q = p \/ (q = strip_retry p /\ q <> ""%string)
  | RInherited _ _ => False
  end.
Proof.
  assert (Hne : strip_retry p <> ""%string).
  { unfold strip_retry. destruct (str_replace_empty p "/fail-then-ok");
    discriminate. }
  unfold do_GET, after_retry, bump.
  repeat match goal with
         | |- context [if ?b then _ else _] => destruct b
         end; simpl; auto.
Qed.


(** X11: start-up fixture creation never touches any file of the fixture
    root other than [mock_binary]. *)
Theorem ensure_mock_binary_frame (fs : fixtures) (name : string) :
  name <> "mock_binary"%string ->
  ensure_mock_binary fs !! name = fs !! name.
Proof.
  intros Hne. unfold ensure_mock_binary, mock_binary_name.
  destruct (fs !! "mock_binary"%string); [reflexivity|].
  by rewrite lookup_insert_ne.
Qed.

Lemma ensure_mock_binary_frame_witness :
  ensure_mock_binary {["install.sh" := [Byte.x41]]} !! "install.sh"%string =
    ({["install.sh" := [Byte.x41]]} : fixtures) !! "install.sh"%string.
Proof. apply ensure_mock_binary_frame. discriminate. Defined.

